(** * spectrum-view: the spectrogram plotter of [spectrum-view.py]

    A shallow embedding of the class [VesnaSpectrumPlot]: its constructor
    [__init__], which allocates the 256 x 256 image array and the two
    frequency axes, and its method [callback], which resamples one sweep
    and scrolls the image.  Arrays are lists of binary64 floats, the object
    is a record threaded through a small state-and-exception monad, and the
    numpy and scipy calls the class makes are written out next to it. *)

From Stdlib Require Import ZArith Lia.
From Stdlib Require Import Floats.PrimFloat Floats.SpecFloat Floats.FloatOps.
From stdpp Require Import base tactics option list list_numbers.

Local Open Scope Z_scope.
Local Open Scope float_scope.
Local Open Scope nat_scope.

(** ** Exceptions and results *)

Inductive exn : Set :=
| ValueError
| IndexError
| ZeroDivisionError.

Inductive result (T : Type) : Type :=
| Ok (v : T)
| Raise (e : exn).
Arguments Ok {T} v.
Arguments Raise {T} e.

(** ** The numpy calls of the class *)

Module Numpy.

(** [float(z)] for a Python int: the binary64 nearest to [z], ties to
    even, whatever the size of [z] (infinity from 2^1024 on, where Python
    raises [OverflowError]). *)
Definition float_of_Z (z : Z) : float :=
  SF2Prim (binary_normalize prec emax z 0 false).

Definition float_of_nat (n : nat) : float := float_of_Z (Z.of_nat n).

(** [linspace(start, stop, num)]: [num] points [start + i * step] with
    [step = (stop - start) / (num - 1)], the last one set to [stop]. *)
Definition linspace (start stop : float) (num : nat) : list float :=
  match num with
  | 0 => []
  | 1 => [start]
  | S m =>
      let step := ((stop - start) / float_of_nat m)%float in
      ((fun i => (float_of_nat i * step + start)%float) <$> seq 0 m) ++ [stop]
  end.

(** [zeros(shape=(rows, cols))]. *)
Definition zeros (rows cols : nat) : list (list float) :=
  replicate rows (replicate cols 0%float).

(** [a - c] for a 2-D array and a scalar. *)
Definition sub_scalar (a : list (list float)) (c : float) : list (list float) :=
  (fun row : list float => (fun v => (v - c)%float) <$> row) <$> a.

(** [roll(a, shift)] without an axis: the array is flattened, its elements
    are moved [shift] places to the right cyclically (to the left for a
    negative [shift]) and the result is given the shape of [a] again. *)
Definition roll (a : list (list float)) (shift : Z) : list (list float) :=
  let flat := mjoin a in
  let n := Z.of_nat (length flat) in
  reshape (length <$> a) (rotate (Z.to_nat ((- shift) `mod` n)%Z) flat).

Global Arguments linspace : simpl never.
Global Arguments roll : simpl never.

End Numpy.

(** ** The state of a plotter and the monad of its methods *)

(** The object passed to [callback] as [sweep]. *)
Record Sweep : Type := mkSweep {
  timestamp : float;
  data : list float;
}.

(** The attributes of a [VesnaSpectrumPlot].  [image] is the array last
    given to [self.image.set_data], which the canvas draws; [interpolator]
    is absent until the first call of [callback]. *)
Record VesnaSpectrumPlot : Type := mkPlot {
  A : list (list float);
  image : list (list float);
  x1 : list float;
  x2 : list float;
  line : nat;
  interpolator : option (float → float);
}.

Definition M (T : Type) : Type :=
  VesnaSpectrumPlot → result T * VesnaSpectrumPlot.

Global Instance M_ret : MRet M := λ T v self, (Ok v, self).

Global Instance M_bind : MBind M := λ T U f m self,
  match m self with
  | (Ok v, self') => f v self'
  | (Raise e, self') => (Raise e, self')
  end.

Definition get : M VesnaSpectrumPlot := λ self, (Ok self, self).

Definition lift {T} (r : result T) : M T := λ self, (r, self).

Definition set_interpolator (f : float → float) : M unit := λ self,
  (Ok tt, mkPlot (A self) (image self) (x1 self) (x2 self) (line self) (Some f)).

Definition set_A (a : list (list float)) : M unit := λ self,
  (Ok tt, mkPlot a (image self) (x1 self) (x2 self) (line self) (interpolator self)).

Definition set_line (n : nat) : M unit := λ self,
  (Ok tt, mkPlot (A self) (image self) (x1 self) (x2 self) n (interpolator self)).

(** [self.A[i] = row]: the row is overwritten in place; an index past the
    last row raises [IndexError]. *)
Definition setitem_A (i : nat) (row : list float) : M unit := λ self,
  if decide (i < length (A self))
  then (Ok tt, mkPlot (<[i := row]> (A self)) (image self) (x1 self) (x2 self)
                 (line self) (interpolator self))
  else (Raise IndexError, self).

(** [self.image.set_data(self.A)]. *)
Definition image_set_data : M unit := λ self,
  (Ok tt, mkPlot (A self) (A self) (x1 self) (x2 self) (line self) (interpolator self)).

(** The plotter with its cached interpolator replaced. *)
Definition with_interpolator (self : VesnaSpectrumPlot) (f : float → float)
    : VesnaSpectrumPlot :=
  mkPlot (A self) (image self) (x1 self) (x2 self) (line self) (Some f).

(** ** The class *)

(** [round(a / b)] for ints [a] and [b], [b] not zero: the integer nearest
    to the quotient, a quotient half way between two integers going to the
    even one.  The quotient is taken exactly; Python rounds it to a float
    first, which gives the same integer as long as [a] is below 2^52 in
    magnitude. *)
Definition round_div (a b : Z) : Z :=
  let q := (a `div` b)%Z in
  match (2 * Z.abs (a `mod` b) ?= Z.abs b)%Z with
  | Lt => q
  | Gt => (q + 1)%Z
  | Eq => if Z.even q then q else (q + 1)%Z
  end.

Section VesnaSpectrumPlot.

(** The cubic interpolant scipy fits through the points [(x, y)], as a
    function of the abscissa.  The spline solver is scipy's own and is
    left open: every statement below holds whatever it computes. *)
Variable cubic_spline : list float → list float → float → float.

(** The sweep configuration object, which [callback] receives and does
    not look at. *)
Variable SweepConfig : Type.

(** [interp1d(x, y, kind='cubic')]: the constructor raises [ValueError]
    when [x] and [y] differ in length and when there are fewer than the
    four points a cubic needs. *)
Definition interp1d (x y : list float) : result (float → float) :=
  if negb (length x =? length y) then Raise ValueError
  else if length x <? 4 then Raise ValueError
  else Ok (cubic_spline x y).

(** The division by [step] raises [ZeroDivisionError] when [step] is
    zero, and [linspace] raises [ValueError] when the number of steps it
    is asked for is negative. *)
Definition __init__ (start_freq end_freq step : Z) : result VesnaSpectrumPlot :=
  if (step =? 0)%Z then Raise ZeroDivisionError
  else
    let nsteps := (round_div (end_freq - start_freq) step + 1)%Z in
    let A0 := Numpy.sub_scalar (Numpy.zeros 256 256) 100%float in
    let lo := Numpy.float_of_Z start_freq in
    let hi := Numpy.float_of_Z end_freq in
    if (nsteps <? 0)%Z then Raise ValueError
    else
      Ok {| A := A0;
            image := A0;
            x1 := Numpy.linspace lo hi (Z.to_nat nsteps);
            x2 := Numpy.linspace lo hi 256;
            line := 0;
            interpolator := None |}.

Definition callback (sweep_config : SweepConfig) (sweep : Sweep) : M bool :=
  self ← get;
  f ← lift (interp1d (x1 self) (data sweep));
  set_interpolator f;;
  if length (data sweep) <? 256 then
    self ← get;
    let data := f <$> x2 self in
    setitem_A (line self) data;;
    image_set_data;;
    self ← get;
    (if 254 <? line self
     then set_A (Numpy.roll (A self) (-256))
     else set_line (line self + 1));;
    mret true
  else
    mret false.

(** The row [callback] computes for [sweep]: the interpolant of the
    sweep over [x1], evaluated at each point of [x2]. *)
Definition resample (self : VesnaSpectrumPlot) (sweep : Sweep) : list float :=
  cubic_spline (x1 self) (data sweep) <$> x2 self.

(** The plotter after [callback] has been invoked on each sweep in turn,
    whatever each invocation returned or raised. *)
Definition feed (sweep_config : SweepConfig) (sweeps : list Sweep)
    (self : VesnaSpectrumPlot) : VesnaSpectrumPlot :=
  foldl (λ s sweep, (callback sweep_config sweep s).2) self sweeps.

End VesnaSpectrumPlot.

(** ** The option handling of [main] *)

Module Main.

(** The values the option parser hands over, each a Python int. *)
Record Options : Type := mkOptions {
  options_start_freq : Z;
  options_end_freq : Z;
  options_step : Z;
}.

Definition RF_UPPER : Z := 866000000.
Definition RF_LOWER : Z := 45000000.
Definition MIN_STEP : Z := 1000.

Definition DEFAULT_LOWER : Z := 554000000.
Definition DEFAULT_UPPER : Z := 570000000.
Definition DEFAULT_STEP : Z := 2000000.

(** [c and v or d] for a boolean [c] and ints [v] and [d]: [v] when [c]
    holds and [v] is not zero, [d] otherwise. *)
Definition and_or (c : bool) (v d : Z) : Z :=
  if c then (if (v =? 0)%Z then d else v) else d.

Definition lower_freq (options : Options) : Z :=
  and_or ((options_start_freq options >? RF_LOWER)%Z
          && (options_start_freq options <? RF_UPPER)%Z)
    (options_start_freq options) DEFAULT_LOWER.

Definition upper_freq (options : Options) : Z :=
  and_or ((options_end_freq options >? RF_LOWER)%Z
          && (options_end_freq options <? RF_UPPER)%Z
          && (options_end_freq options >? lower_freq options)%Z)
    (options_end_freq options) DEFAULT_UPPER.

Definition step (options : Options) : Z :=
  and_or ((options_step options >? MIN_STEP)%Z
          && (upper_freq options - lower_freq options >? options_step options)%Z)
    (options_step options) DEFAULT_STEP.

(** [plotter = VesnaSpectrumPlot(lower_freq, upper_freq, step)]. *)
Definition plotter (options : Options) : result VesnaSpectrumPlot :=
  __init__ (lower_freq options) (upper_freq options) (step options).

End Main.

(** Two plotters that differ at most in the interpolator they cache. *)
Definition same_view (s s' : VesnaSpectrumPlot) : Prop :=
  A s = A s' ∧ image s = image s' ∧ line s = line s'
  ∧ x1 s = x1 s' ∧ x2 s = x2 s'.

(** ** Vocabulary of the statements *)

(** A dense 2-D array of [rows] by [cols]. *)
Definition shape (a : list (list float)) (rows cols : nat) : Prop :=
  length a = rows ∧ Forall (λ r, length r = cols) a.

(** A sweep the plotter resamples: as long as the source axis [x], long
    enough for a cubic, shorter than the image is wide. *)
Definition valid_sweep (x : list float) (sweep : Sweep) : Prop :=
  length (data sweep) = length x ∧ 4 ≤ length (data sweep) ∧ length (data sweep) < 256.

(** A float that is neither an infinity nor a NaN. *)
Definition is_finite (v : float) : bool :=
  negb (PrimFloat.is_nan v) && negb (PrimFloat.is_infinity v).

(** The entry in row 0, column 0 of an array. *)
Definition first_entry (a : list (list float)) : option float :=
  a !! 0 ≫= (.!! 0).

(** The row of an image nothing has been written to. *)
Definition floor_row : list float := replicate 256 (-100)%float.

(** A plotter as the constructor leaves it and [callback] keeps it. *)
Record plot_ok (self : VesnaSpectrumPlot) : Prop := {
  ok_shape : shape (A self) 256 256;
  ok_x2 : length (x2 self) = 256;
  ok_line : line self < 256;
}.

(** ** A piecewise-linear interpolant, to run the class on examples

    It stands where scipy's spline solver does whenever a plotter is run
    on concrete sweeps; no general statement depends on it. *)
Fixpoint linear (x y : list float) (t : float) : float :=
  match x, y with
  | xa :: ((xb :: xs) as x'), ya :: ((yb :: _) as y') =>
      match xs with
      | [] => (ya + (t - xa) * ((yb - ya) / (xb - xa)))%float
      | _ :: _ =>
          if (t <=? xb)%float
          then (ya + (t - xa) * ((yb - ya) / (xb - xa)))%float
          else linear x' y' t
      end
  | _, ya :: _ => ya
  | _, [] => nan
  end.

(** The sweep whose [n] readings all equal [v]. *)
Definition flat_sweep (n : nat) (v : float) : Sweep :=
  mkSweep 0%float (replicate n v).

(** Sweeps number [1] to [n], sweep [k] reading [k] dBm at nine points. *)
Definition numbered_sweeps (n : nat) : list Sweep :=
  (λ k, flat_sweep 9 (Numpy.float_of_nat k)) <$> seq 1 n.

(** The plotter [main] builds from its default options: 554 MHz to
    570 MHz in steps of 2 MHz, nine points on the source axis. *)
Definition default_plot : VesnaSpectrumPlot :=
  mkPlot (replicate 256 floor_row) (replicate 256 floor_row)
    (Numpy.linspace 554000000%float 570000000%float 9)
    (Numpy.linspace 554000000%float 570000000%float 256)
    0 None.

(** A plotter for 554 MHz to 556.55 MHz in steps of 10 kHz: 256 points on
    the source axis. *)
Definition fine_plot : VesnaSpectrumPlot :=
  mkPlot (replicate 256 floor_row) (replicate 256 floor_row)
    (Numpy.linspace 554000000%float 556550000%float 256)
    (Numpy.linspace 554000000%float 556550000%float 256)
    0 None.

(** A sweep of 256 readings. *)
Definition coarse_sweep : Sweep := flat_sweep 256 (-50)%float.

(** A sweep of nine readings, the last of them infinite. *)
Definition spiky_sweep : Sweep :=
  mkSweep 0%float (replicate 8 (-60)%float ++ [infinity]).

Global Instance shape_dec a rows cols : Decision (shape a rows cols).
Proof. unfold shape. apply _. Defined.

Global Instance valid_sweep_dec x sweep : Decision (valid_sweep x sweep).
Proof. unfold valid_sweep. apply _. Defined.

Global Instance plot_ok_dec self : Decision (plot_ok self).
Proof.
  refine (cast_if (decide (shape (A self) 256 256 ∧ length (x2 self) = 256
                           ∧ line self < 256))).
  - destruct a as (? & ? & ?). by split.
  - intros [? ? ?]. tauto.
Defined.

(** ** Arrays: flattening, reshaping and rolling *)

Lemma length_linspace (start stop : float) (num : nat) :
  length (Numpy.linspace start stop num) = num.
Proof.
  destruct num as [|[|m]]; [done..|].
  unfold Numpy.linspace.
  rewrite length_app, length_fmap, length_seq. simpl. lia.
Qed.

Lemma reshape_join (ls : list (list float)) :
  reshape (length <$> ls) (mjoin ls) = ls.
Proof.
  induction ls as [|l ls IH]; [done|].
  csimpl. by rewrite take_app_length, drop_app_length, IH.
Qed.

Lemma fmap_length_const (w : nat) (a : list (list float)) :
  Forall (λ r, length r = w) a → length <$> a = replicate (length a) w.
Proof.
  induction 1 as [|r a Hr _ IH]; [done|].
  csimpl. by rewrite Hr, IH.
Qed.

Lemma rotate_app_length (r k : list float) :
  rotate (length r) (r ++ k) = k ++ r.
Proof.
  unfold rotate. rewrite length_app.
  destruct k as [|x k].
  - rewrite Nat.add_0_r, app_nil_r.
    destruct r as [|y r]; [reflexivity|].
    rewrite Nat.Div0.mod_same. simpl. by rewrite app_nil_r.
  - rewrite Nat.mod_small by (simpl; lia).
    by rewrite take_app_length, drop_app_length.
Qed.

Lemma rotate_to_nat_mod (n : nat) (l : list float) :
  rotate (Z.to_nat (Z.of_nat n `mod` Z.of_nat (length l))) l = rotate n l.
Proof.
  unfold rotate.
  rewrite <- Nat2Z.inj_mod, Nat2Z.id, Nat.Div0.mod_mod. done.
Qed.

(** Rolling an array of rows of width [w] by [-w] elements moves every row
    up by one and the first row to the end. *)
Lemma roll_rows (w : nat) (r : list float) (a : list (list float)) :
  length r = w →
  Forall (λ r', length r' = w) a →
  Numpy.roll (r :: a) (- Z.of_nat w) = a ++ [r].
Proof.
  intros Hr Ha. unfold Numpy.roll.
  rewrite Z.opp_involutive, rotate_to_nat_mod.
  cbn [mjoin list_join]. rewrite <- Hr, rotate_app_length.
  replace (length <$> r :: a) with (length <$> (a ++ [r])).
  - replace (mjoin a ++ r) with (mjoin (a ++ [r])).
    + apply reshape_join.
    + rewrite join_app. simpl. by rewrite app_nil_r.
  - rewrite !(fmap_length_const w).
    + by rewrite length_app, Nat.add_1_r.
    + by apply Forall_cons.
    + apply Forall_app. split; [done|]. by apply Forall_singleton.
Qed.

Lemma roll_256 (a : list (list float)) :
  shape a 256 256 → Numpy.roll a (-256) = rotate 1 a.
Proof.
  intros [Hlen Hall].
  destruct a as [|r a]; [done|].
  apply Forall_cons in Hall as [Hr Ha].
  change (-256)%Z with (- Z.of_nat 256)%Z.
  rewrite (roll_rows 256) by done.
  unfold rotate. rewrite Hlen. done.
Qed.

Lemma lookup_rotate_1 (a : list (list float)) (i : nat) :
  length a = 256 → i < 256 → rotate 1 a !! i = a !! ((i + 1) `mod` 256).
Proof.
  intros Hlen Hi. rewrite lookup_rotate_r by lia.
  unfold rotate_nat_add. rewrite Hlen. f_equal.
  rewrite <- Nat2Z.inj_add, <- (Nat2Z.inj_mod (1 + i) 256), Nat2Z.id.
  f_equal. lia.
Qed.

Lemma shape_floor : shape (Numpy.sub_scalar (Numpy.zeros 256 256) 100%float) 256 256.
Proof.
  split; [reflexivity|].
  unfold Numpy.sub_scalar, Numpy.zeros.
  rewrite Forall_fmap. apply Forall_replicate. reflexivity.
Qed.

Lemma shape_insert (a : list (list float)) (i : nat) (row : list float) :
  shape a 256 256 → length row = 256 → shape (<[i := row]> a) 256 256.
Proof.
  intros [Hlen Hall] Hrow. split.
  - by rewrite length_insert.
  - by apply Forall_insert.
Qed.

Lemma shape_rotate (a : list (list float)) (n : nat) :
  shape a 256 256 → shape (rotate n a) 256 256.
Proof.
  intros [Hlen Hall]. split.
  - by rewrite length_rotate.
  - apply Forall_forall. intros r Hr.
    apply elem_of_rotate in Hr.
    by eapply Forall_forall in Hall.
Qed.

(** ** One invocation of [callback] *)

Section Properties.

Variable cubic_spline : list float → list float → float → float.
Variable SweepConfig : Type.

Abbreviation interp1d := (interp1d cubic_spline).
Abbreviation callback := (callback cubic_spline SweepConfig).
Abbreviation resample := (resample cubic_spline).
Abbreviation feed := (feed cubic_spline SweepConfig).

Implicit Types (self s p : VesnaSpectrumPlot) (sweep : Sweep)
  (sweeps : list Sweep) (cfg : SweepConfig).

(** The three ways [callback] ends, statement by statement. *)
Lemma callback_unfold cfg sweep s :
  callback cfg sweep s =
  match interp1d (x1 s) (data sweep) with
  | Raise e => (Raise e, s)
  | Ok f =>
      if length (data sweep) <? 256 then
        if decide (line s < length (A s)) then
          let a := <[line s := f <$> x2 s]> (A s) in
          (Ok true,
           mkPlot (if 254 <? line s then Numpy.roll a (-256) else a) a
             (x1 s) (x2 s) (if 254 <? line s then line s else line s + 1)
             (Some f))
        else (Raise IndexError, with_interpolator s f)
      else (Ok false, with_interpolator s f)
  end.
Proof.
  unfold callback, mbind, M_bind, get, lift.
  destruct (interp1d (x1 s) (data sweep)) as [f|e]; [|done].
  cbn [set_interpolator].
  destruct (length (data sweep) <? 256); [|done].
  unfold setitem_A. cbn [A line x2].
  destruct (decide (line s < length (A s))); [|done].
  cbn [image_set_data A line x1 x2 image interpolator].
  by destruct (254 <? line s).
Qed.

Lemma interp1d_valid (x : list float) sweep :
  valid_sweep x sweep →
  interp1d x (data sweep) = Ok (cubic_spline x (data sweep)).
Proof.
  intros (Hlen & H4 & _). unfold interp1d.
  rewrite Hlen, Nat.eqb_refl. simpl.
  destruct (Nat.ltb_spec (length x) 4); [lia|done].
Qed.

Lemma interp1d_mismatch (x y : list float) :
  length y ≠ length x → interp1d x y = Raise ValueError.
Proof.
  intros Hne. unfold interp1d.
  destruct (Nat.eqb_spec (length x) (length y)); [congruence|done].
Qed.

Lemma length_resample s sweep : length (resample s sweep) = length (x2 s).
Proof. unfold resample. by rewrite length_fmap. Qed.

(** A valid sweep on a well-formed plotter: the row is written at the
    cursor and shown; at the last row the array is then rolled, before
    it the cursor advances. *)
Lemma callback_valid cfg sweep s :
  plot_ok s → valid_sweep (x1 s) sweep →
  callback cfg sweep s =
  let a := <[line s := resample s sweep]> (A s) in
  (Ok true,
   mkPlot (if 254 <? line s then rotate 1 a else a) a (x1 s) (x2 s)
     (if 254 <? line s then line s else line s + 1)
     (Some (cubic_spline (x1 s) (data sweep)))).
Proof.
  intros [Hshape Hx2 Hline] Hv.
  rewrite callback_unfold, (interp1d_valid _ _ Hv).
  destruct Hv as (_ & _ & H256).
  destruct (Nat.ltb_spec (length (data sweep)) 256); [|lia].
  destruct Hshape as [HlenA Hrows].
  destruct (decide (line s < length (A s))); [|lia].
  cbn zeta. fold (resample s sweep).
  destruct (254 <? line s); [|done].
  rewrite roll_256; [done|].
  apply shape_insert; [by split|].
  by rewrite length_resample.
Qed.

(** Every invocation keeps the axes. *)
Lemma callback_axes cfg sweep s :
  x1 (callback cfg sweep s).2 = x1 s ∧ x2 (callback cfg sweep s).2 = x2 s.
Proof.
  rewrite callback_unfold.
  destruct (interp1d (x1 s) (data sweep)); [|done].
  destruct (length (data sweep) <? 256); [|done].
  by destruct (decide (line s < length (A s))).
Qed.

(** Every invocation keeps the plotter well formed. *)
Lemma callback_ok cfg sweep s :
  plot_ok s → plot_ok (callback cfg sweep s).2.
Proof.
  intros Hok. pose proof Hok as [Hshape Hx2 Hline].
  rewrite callback_unfold.
  destruct (interp1d (x1 s) (data sweep)) as [f|e]; [|done].
  destruct (length (data sweep) <? 256); [|by split].
  destruct (decide (line s < length (A s))); [|by split].
  assert (shape (<[line s := f <$> x2 s]> (A s)) 256 256) as Ha.
  { apply shape_insert; [done|]. by rewrite length_fmap. }
  cbn zeta. destruct (Nat.ltb_spec 254 (line s)); split; cbn; try done; try lia.
  rewrite roll_256 by done. by apply shape_rotate.
Qed.

Lemma feed_snoc cfg sweeps sweep s :
  feed cfg (sweeps ++ [sweep]) s = (callback cfg sweep (feed cfg sweeps s)).2.
Proof. unfold feed. by rewrite foldl_snoc. Qed.

Lemma feed_axes cfg sweeps s :
  x1 (feed cfg sweeps s) = x1 s ∧ x2 (feed cfg sweeps s) = x2 s.
Proof.
  induction sweeps as [|sweep sweeps IH] using rev_ind; [done|].
  rewrite feed_snoc.
  destruct (callback_axes cfg sweep (feed cfg sweeps s)) as [-> ->]. done.
Qed.

Lemma feed_ok cfg sweeps s : plot_ok s → plot_ok (feed cfg sweeps s).
Proof.
  intros Hok.
  induction sweeps as [|sweep sweeps IH] using rev_ind; [done|].
  rewrite feed_snoc. by apply callback_ok.
Qed.

Lemma init_ok (start_freq end_freq step : Z) p :
  __init__ start_freq end_freq step = Ok p → plot_ok p.
Proof.
  unfold __init__. destruct (step =? 0)%Z; [done|]. cbn zeta.
  destruct (_ <? 0)%Z; [done|].
  intros Hp. injection Hp as <-. split.
  - apply shape_floor.
  - apply length_linspace.
  - cbn [line]. lia.
Qed.


(** ** A run of valid sweeps *)

(** While the image fills, the rows of the sweeps stand in order at the
    top of the array, above what was there, and the cursor counts them. *)
Lemma feed_filling cfg sweeps p :
  plot_ok p → line p = 0 →
  Forall (valid_sweep (x1 p)) sweeps →
  length sweeps ≤ 255 →
  A (feed cfg sweeps p) = (resample p <$> sweeps) ++ drop (length sweeps) (A p)
  ∧ line (feed cfg sweeps p) = length sweeps.
Proof.
  intros Hok Hline.
  induction sweeps as [|sweep sweeps IH] using rev_ind; intros Hv Hn.
  - split; [by rewrite drop_0|done].
  - apply Forall_app in Hv as [Hv Hsw]. apply Forall_inv in Hsw.
    rewrite length_app in Hn |- *. cbn [length] in Hn |- *.
    destruct IH as [HA Hl]; [done|lia|].
    pose proof (feed_ok cfg sweeps p Hok) as Hok'.
    destruct (feed_axes cfg sweeps p) as [Hx1 Hx2].
    rewrite feed_snoc, callback_valid by (by rewrite ?Hx1).
    cbn zeta. cbn [snd A line].
    destruct (Nat.ltb_spec 254 (line (feed cfg sweeps p))); [lia|].
    split; [|lia].
    replace (resample (feed cfg sweeps p) sweep) with (resample p sweep)
      by (unfold resample; by rewrite Hx1, Hx2).
    rewrite HA, Hl, fmap_app, <- app_assoc. cbn [fmap list_fmap].
    destruct Hok as [[HlenA _] _ _].
    destruct (drop (length sweeps) (A p)) as [|r rest] eqn:Hdrop.
    { apply (f_equal length) in Hdrop. rewrite length_drop in Hdrop.
      simpl in Hdrop. lia. }
    rewrite (insert_app_r_alt _ _ (length sweeps)) by (by rewrite length_fmap).
    rewrite length_fmap, Nat.sub_diag. cbn [insert list_insert].
    f_equal. f_equal.
    replace (length sweeps + 1) with (S (length sweeps)) by lia.
    apply (f_equal (drop 1)) in Hdrop. rewrite drop_drop in Hdrop.
    rewrite Nat.add_1_r in Hdrop. done.
Qed.

(** From the 256th valid sweep on, the array shown holds the rows of the
    last 256 sweeps in the order they came, the stored array is that one
    rolled up by a row, and the cursor stays on the last row. *)
Lemma feed_full cfg sweeps p :
  plot_ok p → line p = 0 →
  Forall (valid_sweep (x1 p)) sweeps →
  256 ≤ length sweeps →
  image (feed cfg sweeps p) = resample p <$> drop (length sweeps - 256) sweeps
  ∧ A (feed cfg sweeps p) = rotate 1 (image (feed cfg sweeps p))
  ∧ line (feed cfg sweeps p) = 255.
Proof.
  intros Hok Hline.
  induction sweeps as [|sweep sweeps IH] using rev_ind; intros Hv Hn.
  { simpl in Hn. lia. }
  apply Forall_app in Hv as [Hv Hsw]. apply Forall_inv in Hsw.
  rewrite length_app in Hn |- *. cbn [length] in Hn |- *.
  pose proof (feed_ok cfg sweeps p Hok) as Hok'.
  destruct (feed_axes cfg sweeps p) as [Hx1 Hx2].
  rewrite feed_snoc, callback_valid by (by rewrite ?Hx1).
  cbn zeta. cbn [snd A line image].
  replace (resample (feed cfg sweeps p) sweep) with (resample p sweep)
    by (unfold resample; by rewrite Hx1, Hx2).
  destruct (decide (length sweeps = 255)) as [H255|Hne].
  - destruct (feed_filling cfg sweeps p) as [HA Hl]; [done|done|done|lia|].
    rewrite Hl, H255. cbn [Nat.ltb Nat.leb].
    split; [|done].
    rewrite HA, H255. replace (255 + 1 - 256) with 0 by lia.
    rewrite drop_0, fmap_app. cbn [fmap list_fmap].
    destruct Hok as [[HlenA _] _ _].
    rewrite (insert_app_r_alt _ _ 255) by (rewrite length_fmap; lia).
    rewrite length_fmap, H255, Nat.sub_diag.
    destruct (drop 255 (A p)) as [|r rest] eqn:Hdrop.
    { apply (f_equal length) in Hdrop. rewrite length_drop in Hdrop.
      simpl in Hdrop. lia. }
    apply (f_equal length) in Hdrop as Hlen. rewrite length_drop in Hlen.
    destruct rest; [done|]. simpl in Hlen. lia.
  - destruct IH as (Himg & HA & Hl); [done|lia|].
    rewrite Hl. cbn [Nat.ltb Nat.leb].
    split; [|done].
    rewrite HA, Himg.
    replace (length sweeps + 1 - 256) with (S (length sweeps - 256)) by lia.
    rewrite drop_app_le by lia. rewrite fmap_app. cbn [fmap list_fmap].
    set (d := drop (length sweeps - 256) sweeps).
    assert (length d = 256) as Hd by (unfold d; rewrite length_drop; lia).
    replace (drop (S (length sweeps - 256)) sweeps) with (drop 1 d)
      by (unfold d; rewrite drop_drop; f_equal; lia).
    destruct d as [|d0 d']; [done|].
    cbn [length] in Hd.
    unfold rotate. rewrite length_fmap. cbn [length]. rewrite Hd.
    change (1 `mod` 256) with 1. csimpl. rewrite ?drop_0, ?take_0.
    rewrite (insert_app_r_alt _ _ 255) by (rewrite length_fmap; lia).
    rewrite length_fmap. replace (255 - length d') with 0 by lia. done.
Qed.

(** ** The constructor *)

Lemma init_fields (start_freq end_freq step : Z) p :
  __init__ start_freq end_freq step = Ok p →
  A p = replicate 256 floor_row ∧ image p = A p ∧ line p = 0
  ∧ interpolator p = None.
Proof.
  unfold __init__. destruct (step =? 0)%Z; [done|]. cbn zeta.
  destruct (_ <? 0)%Z; [done|].
  intros Hp. injection Hp as <-. cbn [A image line interpolator].
  split; [|done]. vm_compute. reflexivity.
Qed.

(** C6. The constructor leaves a 256 x 256 array whose every entry is
    -100 and the cursor on row 0; the first valid sweep is accepted and
    its resampled row replaces row 0, the other rows staying as they
    were. *)
Theorem C6_initial_state (start_freq end_freq step : Z) p cfg sweep :
  __init__ start_freq end_freq step = Ok p →
  valid_sweep (x1 p) sweep →
  shape (A p) 256 256
  ∧ (∀ i j, i < 256 → j < 256 → A p !! i ≫= (.!! j) = Some (-100)%float)
  ∧ A p = replicate 256 (replicate 256 (-100)%float)
  ∧ line p = 0
  ∧ (callback cfg sweep p).1 = Ok true
  ∧ A (callback cfg sweep p).2 = <[0 := resample p sweep]> (A p)
  ∧ A (callback cfg sweep p).2 !! 0 = Some (resample p sweep).
Proof.
  intros Hinit Hv.
  pose proof (init_ok _ _ _ _ Hinit) as Hok.
  destruct (init_fields _ _ _ _ Hinit) as (HA & _ & Hl & _).
  split; [apply Hok|]. split.
  { intros i j Hi Hj. rewrite HA.
    rewrite (lookup_replicate_2 _ _ _ Hi). cbn [mbind option_bind].
    by apply lookup_replicate_2. }
  split; [done|]. split; [done|].
  rewrite callback_valid by done. cbn zeta. cbn [fst snd A].
  rewrite Hl. cbn [Nat.ltb Nat.leb].
  split; [done|]. split; [done|].
  apply list_lookup_insert_eq. destruct Hok as [[-> _] _ _]. lia.
Qed.

(** C10. From the constructor on, after any sequence of invocations of
    [callback], whatever the sweeps are and however each invocation
    ends, the array is one of 256 rows of 256 values. *)
Theorem C10_shape_preserved (start_freq end_freq step : Z) p cfg sweeps :
  __init__ start_freq end_freq step = Ok p →
  shape (A (feed cfg sweeps p)) 256 256.
Proof.
  intros Hinit. apply feed_ok. by eapply init_ok.
Qed.

(** C3. From the constructor on the cursor is below 256 after any
    invocations.  After 255 valid sweeps it is 255 and nothing has moved:
    the rows stand where they were written and the last row is untouched.
    The 256th valid sweep and every valid sweep after it scrolls the
    array, each row going up by one, the new row ending in row 254 and the
    former row 0 in row 255, and leaves the cursor on 255. *)
Theorem C3_cursor (start_freq end_freq step : Z) p cfg
    (any filling more : list Sweep) sweep :
  __init__ start_freq end_freq step = Ok p →
  Forall (valid_sweep (x1 p)) (filling ++ more ++ [sweep]) →
  length filling = 255 →
  line (feed cfg any p) < 256
  ∧ line (feed cfg filling p) = 255
  ∧ A (feed cfg filling p) = (resample p <$> filling) ++ [floor_row]
  ∧ (let s := feed cfg (filling ++ more) p in
     line s = 255
     ∧ (callback cfg sweep s).1 = Ok true
     ∧ A (callback cfg sweep s).2
       = rotate 1 (<[255 := resample p sweep]> (A s))
     ∧ (∀ i, i < 254 → A (callback cfg sweep s).2 !! i = A s !! (i + 1))
     ∧ A (callback cfg sweep s).2 !! 254 = Some (resample p sweep)
     ∧ A (callback cfg sweep s).2 !! 255 = A s !! 0
     ∧ line (callback cfg sweep s).2 = 255).
Proof.
  intros Hinit Hv Hlen.
  pose proof (init_ok _ _ _ _ Hinit) as Hok.
  destruct (init_fields _ _ _ _ Hinit) as (HA & _ & Hl & _).
  apply Forall_app in Hv as [Hfill Hv].
  apply Forall_app in Hv as [Hmore Hsw]. apply Forall_inv in Hsw.
  split; [apply (feed_ok cfg any p Hok)|].
  destruct (feed_filling cfg filling p) as [HAf Hlf]; [done|done|done|lia|].
  split; [lia|]. split.
  { rewrite HAf, HA, Hlen. done. }
  cbn zeta.
  set (s := feed cfg (filling ++ more) p).
  pose proof (feed_ok cfg (filling ++ more) p Hok) as Hoks.
  destruct (feed_axes cfg (filling ++ more) p) as [Hx1 Hx2].
  fold s in Hoks, Hx1, Hx2.
  assert (line s = 255) as Hls.
  { destruct more as [|sw more].
    - unfold s. by rewrite app_nil_r, Hlf.
    - destruct (feed_full cfg (filling ++ sw :: more) p) as (_ & _ & H);
        [done|done|by apply Forall_app| |done].
      rewrite length_app. simpl. lia. }
  split; [done|].
  rewrite callback_valid by (by rewrite ?Hx1).
  cbn zeta. cbn [fst snd A line]. rewrite Hls. cbn [Nat.ltb Nat.leb].
  replace (resample s sweep) with (resample p sweep)
    by (unfold resample; by rewrite Hx1, Hx2).
  assert (length (A s) = 256) as HlenA by apply Hoks.
  assert (length (<[255 := resample p sweep]> (A s)) = 256) as Hlenw
    by (by rewrite length_insert).
  split; [done|]. split; [done|]. split.
  { intros i Hi. rewrite lookup_rotate_1 by (done || lia).
    rewrite Nat.mod_small by lia. by rewrite list_lookup_insert_ne by lia. }
  split.
  { rewrite lookup_rotate_1 by (done || lia).
    change ((254 + 1) `mod` 256) with 255.
    apply list_lookup_insert_eq. lia. }
  split; [|done].
  rewrite lookup_rotate_1 by (done || lia).
  change ((255 + 1) `mod` 256) with 0.
  by rewrite list_lookup_insert_ne by lia.
Qed.


(** ** The wrap *)

(** C8. On a valid sweep with the cursor on row 255 the array is rolled
    as a cycle: each row but the last receives the row below it as it
    stood once the new row was written, and the last row receives the
    former row 0, which the next valid sweep then overwrites. *)
Theorem C8_wrap_is_rotation cfg sweep next s :
  plot_ok s → line s = 255 →
  valid_sweep (x1 s) sweep → valid_sweep (x1 s) next →
  let written := <[255 := resample s sweep]> (A s) in
  let s' := (callback cfg sweep s).2 in
  (∀ i, i < 255 → A s' !! i = written !! (i + 1))
  ∧ A s' !! 255 = A s !! 0
  ∧ A s' !! 254 = Some (resample s sweep)
  ∧ length (A s') = 256
  ∧ image (callback cfg next s').2 !! 255 = Some (resample s next).
Proof.
  intros Hok Hl Hv Hnext written s'.
  pose proof (callback_ok cfg sweep s Hok) as Hok'.
  destruct (callback_axes cfg sweep s) as [Hx1 Hx2].
  fold s' in Hok', Hx1, Hx2.
  assert (A s' = rotate 1 written ∧ line s' = 255) as [HA' Hl'].
  { unfold s'. rewrite callback_valid by done.
    cbn zeta. cbn [snd A line]. rewrite Hl. by cbn [Nat.ltb Nat.leb]. }
  assert (length written = 256) as Hlen.
  { unfold written. rewrite length_insert. apply Hok. }
  assert (∀ i, i < 256 → A s' !! i = written !! ((i + 1) `mod` 256)) as Hrot.
  { intros i Hi. rewrite HA'. by apply lookup_rotate_1. }
  split.
  { intros i Hi. rewrite Hrot by lia. by rewrite Nat.mod_small by lia. }
  split.
  { rewrite Hrot by lia. change ((255 + 1) `mod` 256) with 0.
    unfold written. by rewrite list_lookup_insert_ne by lia. }
  split.
  { rewrite Hrot by lia. change ((254 + 1) `mod` 256) with 255.
    unfold written. apply list_lookup_insert_eq.
    destruct Hok as [[-> _] _ _]. lia. }
  split.
  { apply Hok'. }
  rewrite callback_valid by (by rewrite ?Hx1).
  cbn zeta. cbn [snd image]. rewrite Hl'.
  replace (resample s' next) with (resample s next)
    by (unfold resample; by rewrite Hx1, Hx2).
  apply list_lookup_insert_eq. destruct Hok' as [[-> _] _ _]. lia.
Qed.

(** ** The order of construction and guard *)

Lemma callback_mismatch cfg sweep s :
  length (data sweep) ≠ length (x1 s) →
  callback cfg sweep s = (Raise ValueError, s).
Proof.
  intros Hne. by rewrite callback_unfold, interp1d_mismatch.
Qed.

Lemma callback_coarse cfg sweep s f :
  interp1d (x1 s) (data sweep) = Ok f →
  256 ≤ length (data sweep) →
  callback cfg sweep s = (Ok false, with_interpolator s f).
Proof.
  intros Hf Hn. rewrite callback_unfold, Hf.
  by destruct (Nat.ltb_spec (length (data sweep)) 256); [lia|].
Qed.

(** C9. The interpolator is built before the length of the sweep is
    compared with 256, on every invocation.  A sweep whose length differs
    from that of the source axis makes [callback] raise, whatever its
    length, where a sweep of 256 readings or more would otherwise be
    skipped, and the plotter is as before.  For any sweep, when the
    construction raises, [callback] raises the same with the plotter as
    before; when it succeeds, the new interpolator is stored whichever
    way the invocation then ends, a skip included. *)
Theorem C9_interpolator_before_guard cfg bad sweep s :
  length (data bad) ≠ length (x1 s) →
  callback cfg bad s = (Raise ValueError, s)
  ∧ (callback cfg bad s).1 ≠ Ok false
  ∧ match interp1d (x1 s) (data sweep) with
    | Raise e => callback cfg sweep s = (Raise e, s)
    | Ok f =>
        interpolator (callback cfg sweep s).2 = Some f
        ∧ (callback cfg sweep s).1 =
            if length (data sweep) <? 256
            then (if decide (line s < length (A s)) then Ok true
                  else Raise IndexError)
            else Ok false
    end.
Proof.
  intros Hbad.
  rewrite (callback_mismatch cfg bad s Hbad).
  split; [done|]. split; [done|].
  rewrite callback_unfold.
  destruct (interp1d (x1 s) (data sweep)) as [f|e]; [|done].
  destruct (length (data sweep) <? 256); [|done].
  by destruct (decide (line s < length (A s))).
Qed.

(** C2. A sweep of 256 readings or more, as long as the source axis the
    plotter was configured with, is skipped: [callback] returns [False]
    and leaves the array, the array shown and the cursor as they were. *)
Theorem C2_skip_on_coarse_sweep cfg sweep s :
  256 ≤ length (data sweep) →
  length (data sweep) = length (x1 s) →
  (callback cfg sweep s).1 = Ok false
  ∧ A (callback cfg sweep s).2 = A s
  ∧ image (callback cfg sweep s).2 = image s
  ∧ line (callback cfg sweep s).2 = line s.
Proof.
  intros Hn Heq.
  rewrite (callback_coarse cfg sweep s (cubic_spline (x1 s) (data sweep)));
    [done| |done].
  unfold interp1d. rewrite Heq, Nat.eqb_refl. cbn [negb].
  by destruct (Nat.ltb_spec (length (x1 s)) 4); [lia|].
Qed.

(** C4, amended. [callback] has no check of its own.  A sweep whose
    length differs from that of the source axis is refused by the
    construction of the interpolator, which raises and leaves the
    plotter as it was.  A sweep of the right length is resampled
    whatever its readings are, finite or not: [callback] returns [True],
    the row is written at the cursor and shown. *)
Theorem C4_malformed_sweep cfg bad sweep s :
  plot_ok s →
  length (data bad) ≠ length (x1 s) →
  valid_sweep (x1 s) sweep →
  callback cfg bad s = (Raise ValueError, s)
  ∧ (callback cfg sweep s).1 = Ok true
  ∧ image (callback cfg sweep s).2 = <[line s := resample s sweep]> (A s)
  ∧ image (callback cfg sweep s).2 !! line s = Some (resample s sweep).
Proof.
  intros Hok Hbad Hv.
  split; [by apply callback_mismatch|].
  rewrite callback_valid by done. cbn zeta. cbn [fst snd image].
  split; [done|]. split; [done|].
  apply list_lookup_insert_eq. destruct Hok as [[-> _] _ Hl]. lia.
Qed.


(** ** Resampling *)

Lemma callback_row cfg sweep s :
  plot_ok s → valid_sweep (x1 s) sweep →
  image (callback cfg sweep s).2 !! line s = Some (resample s sweep).
Proof.
  intros Hok Hv. rewrite callback_valid by done. cbn zeta. cbn [snd image].
  apply list_lookup_insert_eq. destruct Hok as [[-> _] _ Hl]. lia.
Qed.

(** C7. The row [callback] writes for a sweep is fixed by the two axes
    and the readings alone: two plotters with the same axes, whatever
    their arrays, cursors and cached interpolators, given sweeps with
    the same readings, write the same row and cache the same
    interpolator, and so does a second invocation on the same plotter.
    Resampling leaves the axes and every other row of the array shown
    as they were. *)
Theorem C7_resampling_deterministic cfg cfg' sweep sweep' s s' :
  plot_ok s → plot_ok s' →
  x1 s' = x1 s → x2 s' = x2 s → data sweep' = data sweep →
  valid_sweep (x1 s) sweep →
  let r := callback cfg sweep s in
  let r' := callback cfg' sweep' s' in
  image r'.2 !! line s' = image r.2 !! line s
  ∧ image (callback cfg sweep r.2).2 !! line r.2 = image r.2 !! line s
  ∧ interpolator r'.2 = interpolator r.2
  ∧ x1 r.2 = x1 s ∧ x2 r.2 = x2 s
  ∧ (∀ i, i ≠ line s → image r.2 !! i = A s !! i).
Proof.
  intros Hok Hok' Hx1 Hx2 Hdata Hv r r'.
  assert (valid_sweep (x1 s') sweep') as Hv'.
  { unfold valid_sweep. rewrite Hx1, Hdata. exact Hv. }
  assert (resample s' sweep' = resample s sweep) as Hrow.
  { unfold resample. by rewrite Hx1, Hx2, Hdata. }
  destruct (callback_axes cfg sweep s) as [Hx1r Hx2r].
  fold r in Hx1r, Hx2r.
  split.
  { unfold r, r'. by rewrite !callback_row, Hrow. }
  split.
  { unfold r. rewrite !callback_row; try done.
    - unfold resample. fold r. by rewrite Hx1r, Hx2r.
    - by apply callback_ok.
    - fold r. by rewrite Hx1r. }
  split.
  { unfold r, r'. rewrite !callback_valid by done.
    cbn zeta. cbn [snd interpolator]. by rewrite Hx1, Hdata. }
  split; [done|]. split; [done|].
  intros i Hi. unfold r. rewrite callback_valid by done.
  cbn zeta. cbn [snd image]. by rewrite list_lookup_insert_ne.
Qed.

(** ** The sliding window *)

(** C1, amended. From the constructor on, after 256 valid sweeps or
    more, the array given to the image during the last invocation holds
    the rows of the last 256 sweeps in the order they came, oldest in
    row 0 and newest in row 255.  The array the plotter keeps when
    [callback] returns is that array rolled up by one row: rows 0 to
    254 hold the 255 newest sweeps in order and row 255 holds the oldest
    of the 256. *)
Theorem C1_sliding_window (start_freq end_freq step : Z) p cfg sweeps :
  __init__ start_freq end_freq step = Ok p →
  Forall (valid_sweep (x1 p)) sweeps →
  256 ≤ length sweeps →
  let s := feed cfg sweeps p in
  let window := resample p <$> drop (length sweeps - 256) sweeps in
  length window = 256
  ∧ image s = window
  ∧ A s = rotate 1 window
  ∧ (∀ i, i < 255 → A s !! i = window !! (i + 1))
  ∧ A s !! 255 = window !! 0.
Proof.
  intros Hinit Hv Hn s window.
  pose proof (init_ok _ _ _ _ Hinit) as Hok.
  destruct (init_fields _ _ _ _ Hinit) as (_ & _ & Hl & _).
  destruct (feed_full cfg sweeps p Hok Hl Hv Hn) as (Himg & HA & _).
  fold s in Himg, HA. fold window in Himg.
  assert (length window = 256) as Hlen.
  { unfold window. rewrite length_fmap, length_drop. lia. }
  rewrite Himg in HA.
  assert (∀ i, i < 256 → A s !! i = window !! ((i + 1) `mod` 256)) as Hrot.
  { intros i Hi. rewrite HA. by apply lookup_rotate_1. }
  split; [done|]. split; [done|]. split; [done|]. split.
  - intros i Hi. rewrite Hrot by lia. by rewrite Nat.mod_small by lia.
  - by rewrite Hrot by lia.
Qed.

End Properties.

(** ** The class run on concrete sweeps *)

Example init_default :
  __init__ 554000000%Z 570000000%Z 2000000%Z = Ok default_plot.
Proof. vm_compute. reflexivity. Qed.

Example init_fine :
  __init__ 554000000%Z 556550000%Z 10000%Z = Ok fine_plot.
Proof. vm_compute. reflexivity. Qed.

Example default_axis_points : length (x1 default_plot) = 9.
Proof. reflexivity. Qed.

Example three_sweeps :
  let s := feed linear unit tt (numbered_sweeps 3) default_plot in
  line s = 3
  ∧ take 4 (take 2 <$> A s)
    = [[1; 1]; [2; 2]; [3; 3]; [-100; -100]]%float.
Proof. vm_compute. done. Qed.

Lemma C6_initial_state_witness :
  __init__ 554000000%Z 570000000%Z 2000000%Z = Ok default_plot
  ∧ valid_sweep (x1 default_plot) (flat_sweep 9 (-60)%float)
  ∧ A (callback linear unit tt (flat_sweep 9 (-60)%float) default_plot).2 !! 0
    = Some (resample linear default_plot (flat_sweep 9 (-60)%float)).
Proof.
  assert (valid_sweep (x1 default_plot) (flat_sweep 9 (-60)%float)) as Hv
    by compute_done.
  split; [exact init_default|]. split; [exact Hv|].
  exact (proj2 (proj2 (proj2 (proj2 (proj2 (proj2
    (C6_initial_state linear unit _ _ _ _ tt _ init_default Hv))))))).
Defined.

Lemma C10_shape_preserved_witness :
  __init__ 554000000%Z 570000000%Z 2000000%Z = Ok default_plot
  ∧ shape (A (feed linear unit tt
                (numbered_sweeps 260 ++ [coarse_sweep; spiky_sweep]) default_plot))
      256 256.
Proof.
  split; [exact init_default|].
  exact (C10_shape_preserved linear unit _ _ _ _ tt _ init_default).
Defined.

Lemma C3_cursor_witness :
  let filling := numbered_sweeps 255 in
  let more := flat_sweep 9 <$> [(-70)%float; (-65)%float] in
  let sweep := flat_sweep 9 (-60)%float in
  __init__ 554000000%Z 570000000%Z 2000000%Z = Ok default_plot
  ∧ Forall (valid_sweep (x1 default_plot)) (filling ++ more ++ [sweep])
  ∧ length filling = 255
  ∧ line (feed linear unit tt filling default_plot) = 255
  ∧ line (callback linear unit tt sweep
            (feed linear unit tt (filling ++ more) default_plot)).2 = 255.
Proof.
  intros filling more sweep.
  assert (Forall (valid_sweep (x1 default_plot)) (filling ++ more ++ [sweep]))
    as Hv by compute_done.
  assert (length filling = 255) as Hlen by (vm_compute; reflexivity).
  destruct (C3_cursor linear unit _ _ _ _ tt [coarse_sweep] filling more sweep
              init_default Hv Hlen)
    as (_ & H255 & _ & _ & _ & _ & _ & _ & _ & Hpin).
  split_and!; assumption || exact init_default.
Defined.

Lemma C8_wrap_is_rotation_witness :
  let s := feed linear unit tt (numbered_sweeps 255) default_plot in
  let sweep := flat_sweep 9 (-60)%float in
  let next := flat_sweep 9 (-55)%float in
  plot_ok s ∧ line s = 255
  ∧ valid_sweep (x1 s) sweep ∧ valid_sweep (x1 s) next
  ∧ A (callback linear unit tt sweep s).2 !! 255 = A s !! 0.
Proof.
  intros s sweep next.
  assert (plot_ok s) as Hok by compute_done.
  assert (line s = 255) as Hl by (vm_compute; reflexivity).
  assert (valid_sweep (x1 s) sweep) as Hv by compute_done.
  assert (valid_sweep (x1 s) next) as Hn by compute_done.
  destruct (C8_wrap_is_rotation linear unit tt sweep next s Hok Hl Hv Hn)
    as (_ & Hlast & _).
  split_and!; assumption.
Defined.

Lemma C9_interpolator_before_guard_witness :
  let sweep := flat_sweep 9 (-60)%float in
  length (data coarse_sweep) ≠ length (x1 default_plot)
  ∧ callback linear unit tt coarse_sweep default_plot
    = (Raise ValueError, default_plot)
  ∧ interpolator (callback linear unit tt sweep default_plot).2
    = Some (linear (x1 default_plot) (data sweep)).
Proof.
  intros sweep.
  assert (length (data coarse_sweep) ≠ length (x1 default_plot)) as Hbad
    by compute_done.
  destruct (C9_interpolator_before_guard linear unit tt coarse_sweep sweep
              default_plot Hbad) as (Hraise & _ & Hbuilt).
  assert (interp1d linear (x1 default_plot) (data sweep)
          = Ok (linear (x1 default_plot) (data sweep))) as Hf by reflexivity.
  rewrite Hf in Hbuilt. destruct Hbuilt as [Hcache _].
  split_and!; assumption.
Defined.

Lemma C2_skip_on_coarse_sweep_witness :
  256 ≤ length (data coarse_sweep)
  ∧ length (data coarse_sweep) = length (x1 fine_plot)
  ∧ (callback linear unit tt coarse_sweep fine_plot).1 = Ok false
  ∧ A (callback linear unit tt coarse_sweep fine_plot).2 = A fine_plot
  ∧ line (callback linear unit tt coarse_sweep fine_plot).2 = line fine_plot.
Proof.
  assert (256 ≤ length (data coarse_sweep)) as Hn by compute_done.
  assert (length (data coarse_sweep) = length (x1 fine_plot)) as Heq
    by compute_done.
  destruct (C2_skip_on_coarse_sweep linear unit tt coarse_sweep fine_plot
              Hn Heq) as (Hret & HA & _ & Hl).
  split_and!; assumption.
Defined.

Lemma C4_malformed_sweep_witness :
  plot_ok default_plot
  ∧ length (data coarse_sweep) ≠ length (x1 default_plot)
  ∧ valid_sweep (x1 default_plot) spiky_sweep
  ∧ callback linear unit tt coarse_sweep default_plot
    = (Raise ValueError, default_plot)
  ∧ (callback linear unit tt spiky_sweep default_plot).1 = Ok true.
Proof.
  assert (plot_ok default_plot) as Hok by compute_done.
  assert (length (data coarse_sweep) ≠ length (x1 default_plot)) as Hbad
    by compute_done.
  assert (valid_sweep (x1 default_plot) spiky_sweep) as Hv by compute_done.
  destruct (C4_malformed_sweep linear unit tt coarse_sweep spiky_sweep
              default_plot Hok Hbad Hv) as (Hraise & Hret & _).
  split_and!; assumption.
Defined.

(** A sweep of the configured length with an infinite reading is not
    refused: [callback] returns [True], the cursor advances and row 0 of
    the array is no longer what it was. *)
Lemma C4_counterexample :
  existsb (λ v, negb (is_finite v)) (data spiky_sweep) = true
  ∧ length (data spiky_sweep) = length (x1 default_plot)
  ∧ (callback linear unit tt spiky_sweep default_plot).1 = Ok true
  ∧ line (callback linear unit tt spiky_sweep default_plot).2 = 1
  ∧ A (callback linear unit tt spiky_sweep default_plot).2 ≠ A default_plot.
Proof.
  split; [reflexivity|]. split; [reflexivity|].
  split; [vm_compute; reflexivity|]. split; [vm_compute; reflexivity|].
  assert (first_entry (A (callback linear unit tt spiky_sweep default_plot).2)
          = Some (-60)%float) as Hnew by (vm_compute; reflexivity).
  assert (first_entry (A default_plot) = Some (-100)%float) as Hold
    by (vm_compute; reflexivity).
  intros H. rewrite H, Hold in Hnew.
  apply (f_equal (from_option (PrimFloat.eqb (-100)%float) false)) in Hnew.
  discriminate Hnew.
Qed.

Lemma C7_resampling_deterministic_witness :
  let s := default_plot in
  let s' := feed linear unit tt (numbered_sweeps 7) default_plot in
  let sweep := flat_sweep 9 (-60)%float in
  let sweep' := mkSweep 1%float (data sweep) in
  plot_ok s ∧ plot_ok s' ∧ x1 s' = x1 s ∧ x2 s' = x2 s
  ∧ data sweep' = data sweep ∧ valid_sweep (x1 s) sweep
  ∧ image (callback linear unit tt sweep' s').2 !! line s'
    = image (callback linear unit tt sweep s).2 !! line s.
Proof.
  intros s s' sweep sweep'.
  assert (plot_ok s) as Hok by compute_done.
  assert (plot_ok s') as Hok' by compute_done.
  assert (x1 s' = x1 s) as Hx1 by (vm_compute; reflexivity).
  assert (x2 s' = x2 s) as Hx2 by (vm_compute; reflexivity).
  assert (data sweep' = data sweep) as Hd by reflexivity.
  assert (valid_sweep (x1 s) sweep) as Hv by compute_done.
  destruct (C7_resampling_deterministic linear unit tt tt sweep sweep' s s'
              Hok Hok' Hx1 Hx2 Hd Hv) as (Hrow & _).
  split_and!; assumption.
Defined.

Lemma C1_sliding_window_witness :
  let sweeps := numbered_sweeps 300 in
  let s := feed linear unit tt sweeps default_plot in
  let window := resample linear default_plot <$> drop 44 sweeps in
  __init__ 554000000%Z 570000000%Z 2000000%Z = Ok default_plot
  ∧ Forall (valid_sweep (x1 default_plot)) sweeps
  ∧ 256 ≤ length sweeps
  ∧ image s = window
  ∧ A s = rotate 1 window.
Proof.
  intros sweeps s window.
  assert (Forall (valid_sweep (x1 default_plot)) sweeps) as Hv by compute_done.
  assert (256 ≤ length sweeps) as Hn by compute_done.
  destruct (C1_sliding_window linear unit _ _ _ _ tt sweeps
              init_default Hv Hn) as (_ & Himg & HA & _).
  split_and!; assumption || exact init_default.
Defined.

(** After 300 valid sweeps the rows of the array the plotter keeps are not
    the rows of sweeps 45 to 300 in order: row 0 holds sweep 46 and
    row 255 holds sweep 45. *)
Lemma C1_counterexample :
  let sweeps := numbered_sweeps 300 in
  let s := feed linear unit tt sweeps default_plot in
  Forall (valid_sweep (x1 default_plot)) sweeps
  ∧ A s !! 0 = resample linear default_plot <$> sweeps !! 45
  ∧ A s !! 255 = resample linear default_plot <$> sweeps !! 44
  ∧ A s ≠ resample linear default_plot <$> drop 44 sweeps.
Proof.
  intros sweeps s.
  split; [compute_done|].
  split; [vm_compute; reflexivity|]. split; [vm_compute; reflexivity|].
  assert (first_entry (A s) = Some 46%float) as Hkept
    by (vm_compute; reflexivity).
  assert (first_entry (resample linear default_plot <$> drop 44 sweeps)
          = Some 45%float) as Hclaimed by (vm_compute; reflexivity).
  intros H. rewrite H, Hclaimed in Hkept.
  apply (f_equal (from_option (PrimFloat.eqb 45%float) false)) in Hkept.
  discriminate Hkept.
Qed.

(** ** Rounding the number of steps *)

Lemma round_div_ge_floor (a b : Z) : (a `div` b <= round_div a b)%Z.
Proof.
  unfold round_div.
  destruct (2 * Z.abs (a `mod` b) ?= Z.abs b)%Z; [|lia|lia].
  destruct (Z.even (a `div` b)); lia.
Qed.

Lemma round_div_nonneg (a b : Z) :
  (0 <= a)%Z → (0 < b)%Z → (0 <= round_div a b)%Z.
Proof.
  intros Ha Hb. pose proof (round_div_ge_floor a b).
  pose proof (Z.div_pos a b Ha Hb). lia.
Qed.

Lemma round_div_le_2 (a b : Z) :
  (0 <= a)%Z → (0 < b)%Z → (2 * a <= 5 * b)%Z → (round_div a b <= 2)%Z.
Proof.
  intros Ha Hb Hab.
  pose proof (Z.div_mod a b ltac:(lia)) as Hdm.
  pose proof (Z.mod_pos_bound a b Hb) as Hr.
  pose proof (Z.div_pos a b Ha Hb) as Hq.
  unfold round_div.
  set (q := (a `div` b)%Z) in *. set (r := (a `mod` b)%Z) in *.
  assert (q <= 2)%Z as Hq2 by nia.
  rewrite (Z.abs_eq r), (Z.abs_eq b) by lia.
  destruct (Z.compare_spec (2 * r) b) as [Heq|Hlt|Hgt].
  - destruct (Z.even q) eqn:He; [lia|].
    assert (q ≠ 2)%Z by (intros Hq'; rewrite Hq' in He; discriminate He).
    lia.
  - lia.
  - assert (q <= 1)%Z by nia. lia.
Qed.

Lemma round_div_le_minus_2 (a b : Z) :
  (0 < b)%Z → (2 * a <= - 3 * b)%Z → (round_div a b <= -2)%Z.
Proof.
  intros Hb Hab.
  pose proof (Z.div_mod a b ltac:(lia)) as Hdm.
  pose proof (Z.mod_pos_bound a b Hb) as Hr.
  unfold round_div.
  set (q := (a `div` b)%Z) in *. set (r := (a `mod` b)%Z) in *.
  assert (q <= -2)%Z as Hq2 by nia.
  rewrite (Z.abs_eq r), (Z.abs_eq b) by lia.
  destruct (Z.compare_spec (2 * r) b) as [Heq|Hlt|Hgt].
  - destruct (Z.even q) eqn:He; [lia|].
    assert (q ≠ -2)%Z by (intros Hq'; rewrite Hq' in He; discriminate He).
    lia.
  - lia.
  - assert (q <= -3)%Z by nia. lia.
Qed.

(** ** The options [main] passes on *)

Lemma and_or_cases (c : bool) (v d : Z) :
  (c = true ∧ v ≠ 0%Z ∧ Main.and_or c v d = v)
  ∨ ((c = false ∨ v = 0%Z) ∧ Main.and_or c v d = d).
Proof.
  unfold Main.and_or. destruct c; [|by right; split; [left|]].
  destruct (Z.eqb_spec v 0); [right|left]; auto.
Qed.

Lemma lower_freq_cases (o : Main.Options) :
  ((Main.RF_LOWER < Main.options_start_freq o < Main.RF_UPPER)%Z
   ∧ Main.lower_freq o = Main.options_start_freq o)
  ∨ (¬ (Main.RF_LOWER < Main.options_start_freq o < Main.RF_UPPER)%Z
     ∧ Main.lower_freq o = Main.DEFAULT_LOWER).
Proof.
  unfold Main.lower_freq, Main.RF_LOWER, Main.RF_UPPER.
  destruct (and_or_cases
    ((Main.options_start_freq o >? 45000000)%Z
     && (Main.options_start_freq o <? 866000000)%Z)
    (Main.options_start_freq o) Main.DEFAULT_LOWER) as [(Hc & _ & ->)|(Hc & ->)].
  - left. apply andb_true_iff in Hc as [H1 H2].
    apply Z.gtb_lt in H1. apply Z.ltb_lt in H2. lia.
  - right. split; [|done]. destruct Hc as [Hc| ->]; [|lia].
    apply andb_false_iff in Hc as [H1|H2].
    + rewrite Z.gtb_ltb in H1. apply Z.ltb_ge in H1. lia.
    + apply Z.ltb_ge in H2. lia.
Qed.

Lemma upper_freq_cases (o : Main.Options) :
  ((Main.RF_LOWER < Main.options_end_freq o < Main.RF_UPPER)%Z
   ∧ (Main.lower_freq o < Main.options_end_freq o)%Z
   ∧ Main.upper_freq o = Main.options_end_freq o)
  ∨ (¬ ((Main.RF_LOWER < Main.options_end_freq o < Main.RF_UPPER)%Z
        ∧ (Main.lower_freq o < Main.options_end_freq o)%Z)
     ∧ Main.upper_freq o = Main.DEFAULT_UPPER).
Proof.
  unfold Main.upper_freq, Main.RF_LOWER, Main.RF_UPPER.
  destruct (and_or_cases
    ((Main.options_end_freq o >? 45000000)%Z
     && (Main.options_end_freq o <? 866000000)%Z
     && (Main.options_end_freq o >? Main.lower_freq o)%Z)
    (Main.options_end_freq o) Main.DEFAULT_UPPER) as [(Hc & _ & ->)|(Hc & ->)].
  - left. apply andb_true_iff in Hc as [Hc H3].
    apply andb_true_iff in Hc as [H1 H2].
    apply Z.gtb_lt in H1, H3. apply Z.ltb_lt in H2. lia.
  - right. split; [|done]. destruct Hc as [Hc| ->]; [|lia].
    apply andb_false_iff in Hc as [Hc|H3].
    + apply andb_false_iff in Hc as [H1|H2].
      * rewrite Z.gtb_ltb in H1. apply Z.ltb_ge in H1. lia.
      * apply Z.ltb_ge in H2. lia.
    + rewrite Z.gtb_ltb in H3. apply Z.ltb_ge in H3. lia.
Qed.

Lemma step_cases (o : Main.Options) :
  ((Main.MIN_STEP < Main.options_step o
    < Main.upper_freq o - Main.lower_freq o)%Z
   ∧ Main.step o = Main.options_step o)
  ∨ (¬ (Main.MIN_STEP < Main.options_step o
        < Main.upper_freq o - Main.lower_freq o)%Z
     ∧ Main.step o = Main.DEFAULT_STEP).
Proof.
  unfold Main.step, Main.MIN_STEP.
  destruct (and_or_cases
    ((Main.options_step o >? 1000)%Z
     && (Main.upper_freq o - Main.lower_freq o >? Main.options_step o)%Z)
    (Main.options_step o) Main.DEFAULT_STEP) as [(Hc & _ & ->)|(Hc & ->)].
  - left. apply andb_true_iff in Hc as [H1 H2].
    apply Z.gtb_lt in H1, H2. lia.
  - right. split; [|done]. destruct Hc as [Hc| ->]; [|lia].
    apply andb_false_iff in Hc as [H1|H2].
    + rewrite Z.gtb_ltb in H1. apply Z.ltb_ge in H1. lia.
    + rewrite Z.gtb_ltb in H2. apply Z.ltb_ge in H2. lia.
Qed.

Lemma step_above_min (o : Main.Options) : (Main.MIN_STEP < Main.step o)%Z.
Proof.
  destruct (step_cases o) as [[? ->]|[_ ->]]; [lia|done].
Qed.

(** X1. Whatever the options are, the band [main] passes on lies strictly
    inside the range of the RF input and the step is above the minimum
    step: an option out of range is replaced by its default, never passed
    on. *)
Theorem X1_main_values_in_range (o : Main.Options) :
  (Main.RF_LOWER < Main.lower_freq o < Main.RF_UPPER)%Z
  ∧ (Main.RF_LOWER < Main.upper_freq o < Main.RF_UPPER)%Z
  ∧ (Main.MIN_STEP < Main.step o)%Z.
Proof.
  destruct (lower_freq_cases o) as [[? ->]|[_ ->]];
    destruct (upper_freq_cases o) as [(? & ? & ->)|[_ ->]];
    destruct (step_cases o) as [[? ->]|[_ ->]];
    unfold Main.RF_LOWER, Main.RF_UPPER, Main.MIN_STEP, Main.DEFAULT_LOWER,
      Main.DEFAULT_UPPER, Main.DEFAULT_STEP in *; lia.
Qed.

(** X2. Options that are in range and consistent (the band inside the RF
    range, the end above the start, the step above the minimum and below
    the span) are passed on unchanged. *)
Theorem X2_main_keeps_valid_options (o : Main.Options) :
  (Main.RF_LOWER < Main.options_start_freq o)%Z →
  (Main.options_start_freq o < Main.options_end_freq o)%Z →
  (Main.options_end_freq o < Main.RF_UPPER)%Z →
  (Main.MIN_STEP < Main.options_step o)%Z →
  (Main.options_step o
   < Main.options_end_freq o - Main.options_start_freq o)%Z →
  Main.lower_freq o = Main.options_start_freq o
  ∧ Main.upper_freq o = Main.options_end_freq o
  ∧ Main.step o = Main.options_step o.
Proof.
  intros H1 H2 H3 H4 H5.
  destruct (lower_freq_cases o) as [[_ Hl]|[Hn _]]; [|lia].
  destruct (upper_freq_cases o) as [(_ & _ & Hu)|[Hn _]]; [|lia].
  destruct (step_cases o) as [[_ Hs]|[Hn _]]; [done|lia].
Qed.

(** X3. When the start passed on is below the default end of 570 MHz,
    the band passed on is well ordered, whatever the end option was. *)
Theorem X3_main_band_ordered (o : Main.Options) :
  (Main.lower_freq o < Main.DEFAULT_UPPER)%Z →
  (Main.lower_freq o < Main.upper_freq o)%Z.
Proof.
  intros Hlt.
  destruct (upper_freq_cases o) as [(_ & H & ->)|[_ ->]]; done.
Qed.

(** ** Streams of sweeps *)

Section Streams.

Variable cubic_spline : list float → list float → float → float.
Variable SweepConfig : Type.

Abbreviation interp1d := (interp1d cubic_spline).
Abbreviation callback := (callback cubic_spline SweepConfig).
Abbreviation resample := (resample cubic_spline).
Abbreviation feed := (feed cubic_spline SweepConfig).

Implicit Types (self s p : VesnaSpectrumPlot) (sweep : Sweep)
  (sweeps : list Sweep) (cfg : SweepConfig).

Lemma feed_cons cfg sweep sweeps s :
  feed cfg (sweep :: sweeps) s = feed cfg sweeps (callback cfg sweep s).2.
Proof. reflexivity. Qed.

Lemma interp1d_few_points (x y : list float) :
  length x < 4 → interp1d x y = Raise ValueError.
Proof.
  intros Hx. unfold interp1d.
  destruct (negb (length x =? length y)); [done|].
  by destruct (Nat.ltb_spec (length x) 4); [|lia].
Qed.

(** A sweep that is not valid changes nothing but, when it is only too
    long, the cached interpolator. *)
Lemma callback_not_valid cfg sweep s :
  ¬ valid_sweep (x1 s) sweep → same_view (callback cfg sweep s).2 s.
Proof.
  intros Hnv. rewrite (callback_unfold cubic_spline SweepConfig).
  destruct (interp1d (x1 s) (data sweep)) as [f|e] eqn:Hf; [|done].
  destruct (Nat.ltb_spec (length (data sweep)) 256) as [Hlt|Hge]; [|done].
  exfalso. apply Hnv. unfold interp1d in Hf.
  destruct (Nat.eqb_spec (length (x1 s)) (length (data sweep))) as [Heq|];
    [|done]. cbn [negb] in Hf.
  destruct (Nat.ltb_spec (length (x1 s)) 4); [done|].
  unfold valid_sweep. lia.
Qed.

(** [callback] looks at the interpolator it finds cached no further than
    to replace it. *)
Lemma callback_same_view cfg sweep s s' :
  same_view s s' →
  (callback cfg sweep s).1 = (callback cfg sweep s').1
  ∧ same_view (callback cfg sweep s).2 (callback cfg sweep s').2.
Proof.
  intros (HA & Hi & Hl & Hx1 & Hx2).
  rewrite !(callback_unfold cubic_spline SweepConfig).
  rewrite HA, Hl, Hx1, Hx2.
  destruct (interp1d (x1 s') (data sweep)) as [f|e]; [|by repeat split].
  destruct (length (data sweep) <? 256); [|by repeat split].
  destruct (decide (line s' < length (A s'))); by repeat split.
Qed.

Lemma feed_same_view cfg sweeps s s' :
  same_view s s' → same_view (feed cfg sweeps s) (feed cfg sweeps s').
Proof.
  revert s s'. induction sweeps as [|sweep sweeps IH]; intros s s' Hv; [done|].
  rewrite !feed_cons. apply IH. by apply callback_same_view.
Qed.

Lemma feed_filter cfg sweeps s :
  same_view (feed cfg sweeps s)
    (feed cfg (filter (valid_sweep (x1 s)) sweeps) s).
Proof.
  revert s. induction sweeps as [|sweep sweeps IH]; intros s; [done|].
  rewrite feed_cons.
  destruct (callback_axes cubic_spline SweepConfig cfg sweep s) as [Hx1 _].
  destruct (decide (valid_sweep (x1 s) sweep)) as [Hv|Hnv].
  - rewrite filter_cons_True by done. rewrite feed_cons.
    specialize (IH (callback cfg sweep s).2). by rewrite Hx1 in IH.
  - rewrite filter_cons_False by done.
    specialize (IH (callback cfg sweep s).2). rewrite Hx1 in IH.
    destruct IH as (HA & Hi & Hl & Hy1 & Hy2).
    destruct (feed_same_view cfg (filter (valid_sweep (x1 s)) sweeps)
                (callback cfg sweep s).2 s (callback_not_valid cfg sweep s Hnv))
      as (HA' & Hi' & Hl' & Hy1' & Hy2').
    repeat split; congruence.
Qed.

Lemma Forall_filter_valid (x : list float) sweeps :
  Forall (valid_sweep x) (filter (valid_sweep x) sweeps).
Proof.
  apply Forall_forall. intros sweep Hin.
  by apply list_elem_of_filter in Hin as [? _].
Qed.

Lemma callback_few_points cfg sweep s :
  length (x1 s) < 4 → callback cfg sweep s = (Raise ValueError, s).
Proof.
  intros Hx. rewrite (callback_unfold cubic_spline SweepConfig).
  by rewrite interp1d_few_points.
Qed.

Lemma feed_few_points cfg sweeps s :
  length (x1 s) < 4 → feed cfg sweeps s = s.
Proof.
  intros Hx. induction sweeps as [|sw sweeps IH]; [done|].
  by rewrite feed_cons, callback_few_points.
Qed.

(** X5. A plotter whose source axis has fewer than four points accepts no
    sweep at all: every invocation raises [ValueError] and leaves the
    plotter exactly as it was, so no stream of sweeps ever changes it. *)
Theorem X5_few_points_refuses_all cfg sweep sweeps s :
  length (x1 s) < 4 →
  callback cfg sweep s = (Raise ValueError, s)
  ∧ feed cfg sweeps s = s.
Proof.
  intros Hx. split.
  - by apply callback_few_points.
  - by apply feed_few_points.
Qed.

(** X6. [main] does not guard against a band of fewer than four steps:
    when the span it passes on is at most two and a half times the step,
    the plotter is constructed with between one and three source points,
    and no stream of sweeps ever changes it. *)
Theorem X6_main_narrow_band_refuses_all (o : Main.Options) cfg sweeps :
  (0 <= Main.upper_freq o - Main.lower_freq o)%Z →
  (2 * (Main.upper_freq o - Main.lower_freq o) <= 5 * Main.step o)%Z →
  ∃ p, Main.plotter o = Ok p
       ∧ 0 < length (x1 p) < 4
       ∧ feed cfg sweeps p = p.
Proof.
  intros Hspan Hnarrow.
  pose proof (step_above_min o) as Hstep.
  unfold Main.MIN_STEP in Hstep.
  pose proof (round_div_nonneg _ (Main.step o) Hspan ltac:(lia)) as Hlo.
  pose proof (round_div_le_2 _ (Main.step o) Hspan ltac:(lia) Hnarrow) as Hhi.
  unfold Main.plotter, __init__.
  destruct (Z.eqb_spec (Main.step o) 0) as [H0|_]; [lia|]. cbn zeta.
  destruct (Z.ltb_spec
    (round_div (Main.upper_freq o - Main.lower_freq o) (Main.step o) + 1) 0);
    [lia|].
  eexists. split; [reflexivity|].
  cbn [x1]. rewrite length_linspace.
  split; [lia|].
  apply feed_few_points.
  cbn [x1]. rewrite length_linspace. lia.
Qed.

(** X7. On a well-formed plotter the outcome of [callback] is fixed by the
    length of the sweep: [True] for a valid sweep, [False] for one as long
    as the source axis with 256 readings or more, [ValueError] for every
    other; it never raises [IndexError]. *)
Theorem X7_callback_outcome cfg sweep s :
  plot_ok s →
  (callback cfg sweep s).1 =
    if decide (valid_sweep (x1 s) sweep) then Ok true
    else if decide (length (data sweep) = length (x1 s)
                    ∧ 256 ≤ length (data sweep)) then Ok false
    else Raise ValueError.
Proof.
  intros Hok.
  destruct (decide (valid_sweep (x1 s) sweep)) as [Hv|Hnv].
  { by rewrite (callback_valid cubic_spline SweepConfig). }
  destruct (decide (length (data sweep) = length (x1 s)
                    ∧ 256 ≤ length (data sweep))) as [[Heq Hge]|Hn].
  { rewrite (callback_coarse cubic_spline SweepConfig cfg sweep s
               (cubic_spline (x1 s) (data sweep))); [done| |done].
    unfold interp1d. rewrite Heq, Nat.eqb_refl. cbn [negb].
    by destruct (Nat.ltb_spec (length (x1 s)) 4); [lia|]. }
  destruct (decide (length (data sweep) = length (x1 s))) as [Heq|Hne].
  - rewrite (callback_unfold cubic_spline SweepConfig).
    rewrite interp1d_few_points; [done|].
    unfold valid_sweep in Hnv. lia.
  - by rewrite (callback_mismatch cubic_spline SweepConfig).
Qed.

(** X8. Sweeps that are skipped or refused leave no trace: after any
    stream of sweeps the array, the array shown and the cursor are those
    the valid sweeps of the stream alone would have left. *)
Theorem X8_invalid_sweeps_leave_no_trace cfg sweeps s :
  A (feed cfg sweeps s) = A (feed cfg (filter (valid_sweep (x1 s)) sweeps) s)
  ∧ image (feed cfg sweeps s)
    = image (feed cfg (filter (valid_sweep (x1 s)) sweeps) s)
  ∧ line (feed cfg sweeps s)
    = line (feed cfg (filter (valid_sweep (x1 s)) sweeps) s).
Proof.
  destruct (feed_filter cfg sweeps s) as (HA & Hi & Hl & _). done.
Qed.

(** X9. From the constructor on, after any stream of sweeps, the array
    the plotter keeps is the array shown, or, with the cursor on the last
    row, the array shown rolled up by one row. *)
Theorem X9_stored_is_shown_or_rolled (start_freq end_freq step : Z) p cfg sweeps :
  __init__ start_freq end_freq step = Ok p →
  let s := feed cfg sweeps p in
  image s = A s ∨ (line s = 255 ∧ A s = rotate 1 (image s)).
Proof.
  intros Hinit.
  pose proof (init_ok _ _ _ _ Hinit) as Hok.
  destruct (init_fields _ _ _ _ Hinit) as (_ & Himg & _ & _).
  cbn zeta.
  induction sweeps as [|sweep sweeps IH] using rev_ind; [by left|].
  rewrite (feed_snoc cubic_spline SweepConfig).
  pose proof (feed_ok cubic_spline SweepConfig cfg sweeps p Hok) as Hoks.
  set (s := feed cfg sweeps p) in *.
  destruct (decide (valid_sweep (x1 s) sweep)) as [Hv|Hnv].
  - rewrite (callback_valid cubic_spline SweepConfig) by done.
    cbn zeta. cbn [snd A image line].
    destruct (Nat.ltb_spec 254 (line s)) as [Hl|Hl]; [right|by left].
    split; [|done]. destruct Hoks as [_ _ ?]. lia.
  - destruct (callback_not_valid cfg sweep s Hnv) as (-> & -> & -> & _).
    exact IH.
Qed.

(** X10. From the constructor on, the cursor counts the valid sweeps of
    the stream so far, up to 255, whatever other sweeps came between
    them. *)
Theorem X10_cursor_counts_valid_sweeps (start_freq end_freq step : Z) p cfg sweeps :
  __init__ start_freq end_freq step = Ok p →
  line (feed cfg sweeps p)
  = length (filter (valid_sweep (x1 p)) sweeps) `min` 255.
Proof.
  intros Hinit.
  pose proof (init_ok _ _ _ _ Hinit) as Hok.
  destruct (init_fields _ _ _ _ Hinit) as (_ & _ & Hl & _).
  destruct (feed_filter cfg sweeps p) as (_ & _ & -> & _).
  pose proof (Forall_filter_valid (x1 p) sweeps) as Hv.
  destruct (decide (length (filter (valid_sweep (x1 p)) sweeps) ≤ 255)) as [Hn|Hn].
  - destruct (feed_filling cubic_spline SweepConfig cfg _ p Hok Hl Hv Hn)
      as [_ ->]. lia.
  - destruct (feed_full cubic_spline SweepConfig cfg _ p Hok Hl Hv)
      as (_ & _ & ->); lia.
Qed.

(** X11. From the constructor on, while the stream holds 255 valid sweeps
    or fewer, the rows of its valid sweeps stand in order at the top of
    the array and every row below them still holds -100, whatever other
    sweeps came between them. *)
Theorem X11_filling_rows (start_freq end_freq step : Z) p cfg sweeps :
  __init__ start_freq end_freq step = Ok p →
  length (filter (valid_sweep (x1 p)) sweeps) ≤ 255 →
  A (feed cfg sweeps p)
  = (resample p <$> filter (valid_sweep (x1 p)) sweeps)
    ++ replicate (256 - length (filter (valid_sweep (x1 p)) sweeps)) floor_row.
Proof.
  intros Hinit Hn.
  pose proof (init_ok _ _ _ _ Hinit) as Hok.
  destruct (init_fields _ _ _ _ Hinit) as (HA & _ & Hl & _).
  destruct (feed_filter cfg sweeps p) as (-> & _).
  pose proof (Forall_filter_valid (x1 p) sweeps) as Hv.
  destruct (feed_filling cubic_spline SweepConfig cfg _ p Hok Hl Hv Hn)
    as [-> _].
  by rewrite HA, drop_replicate.
Qed.

(** X12. From the constructor on, once the stream holds 256 valid sweeps
    or more, the array shown holds the rows of its last 256 valid sweeps
    in the order they came and the array kept is that one rolled up by a
    row, whatever other sweeps came between them. *)
Theorem X12_window_of_valid_sweeps (start_freq end_freq step : Z) p cfg sweeps :
  __init__ start_freq end_freq step = Ok p →
  256 ≤ length (filter (valid_sweep (x1 p)) sweeps) →
  let valid := filter (valid_sweep (x1 p)) sweeps in
  image (feed cfg sweeps p) = resample p <$> drop (length valid - 256) valid
  ∧ A (feed cfg sweeps p) = rotate 1 (image (feed cfg sweeps p)).
Proof.
  intros Hinit Hn valid.
  pose proof (init_ok _ _ _ _ Hinit) as Hok.
  destruct (init_fields _ _ _ _ Hinit) as (_ & _ & Hl & _).
  destruct (feed_filter cfg sweeps p) as (-> & -> & _).
  pose proof (Forall_filter_valid (x1 p) sweeps) as Hv.
  destruct (feed_full cubic_spline SweepConfig cfg _ p Hok Hl Hv Hn)
    as (Himg & HA & _).
  done.
Qed.

(** X13. No invocation of [callback] changes the axes, and none moves the
    cursor back or forward by more than one row. *)
Theorem X13_callback_axes_and_cursor cfg sweep s :
  x1 (callback cfg sweep s).2 = x1 s
  ∧ x2 (callback cfg sweep s).2 = x2 s
  ∧ line s ≤ line (callback cfg sweep s).2 ≤ line s + 1.
Proof.
  destruct (callback_axes cubic_spline SweepConfig cfg sweep s) as [-> ->].
  split; [done|]. split; [done|].
  rewrite (callback_unfold cubic_spline SweepConfig).
  destruct (interp1d (x1 s) (data sweep)); [|simpl; lia].
  destruct (length (data sweep) <? 256); [|simpl; lia].
  destruct (decide (line s < length (A s))); [|simpl; lia].
  cbn zeta. cbn [snd line]. destruct (254 <? line s); lia.
Qed.

(** ** The ends of a resampled row *)





End Streams.

(** X4. When the band [main] passes on is not reversed, [main] obtains a
    plotter: the step it passes on is never zero and the number of steps
    is not negative, so the constructor does not raise, and the plotter
    is well formed with one source point more than the rounded number of
    steps in the band. *)
Theorem X4_main_plotter_constructed (o : Main.Options) :
  (Main.lower_freq o <= Main.upper_freq o)%Z →
  ∃ p, Main.plotter o = Ok p
       ∧ plot_ok p
       ∧ length (x1 p)
         = Z.to_nat (round_div (Main.upper_freq o - Main.lower_freq o)
                       (Main.step o) + 1)
       ∧ 1 ≤ length (x1 p)
       ∧ length (x2 p) = 256
       ∧ line p = 0.
Proof.
  intros Hband.
  pose proof (step_above_min o) as Hstep. unfold Main.MIN_STEP in Hstep.
  pose proof (round_div_nonneg (Main.upper_freq o - Main.lower_freq o)
                (Main.step o) ltac:(lia) ltac:(lia)) as Hlo.
  destruct (Main.plotter o) as [p|e] eqn:Hp.
  - exists p. split; [done|]. split; [by eapply init_ok|].
    unfold Main.plotter, __init__ in Hp.
    destruct (Z.eqb_spec (Main.step o) 0) as [H0|_]; [lia|]. cbn zeta in Hp.
    destruct (_ <? 0)%Z; [done|].
    injection Hp as <-. cbn [x1 x2 line].
    rewrite !length_linspace. split_and!; try done. lia.
  - unfold Main.plotter, __init__ in Hp.
    destruct (Z.eqb_spec (Main.step o) 0) as [H0|_]; [lia|]. cbn zeta in Hp.
    destruct (Z.ltb_spec
      (round_div (Main.upper_freq o - Main.lower_freq o) (Main.step o) + 1) 0);
      [lia|done].
Qed.

(** X15. When the band [main] passes on is reversed by one and a half
    steps or more, the number of steps is negative and the constructor
    raises [ValueError]: [main] obtains no plotter. *)
Theorem X15_main_reversed_band_raises (o : Main.Options) :
  (2 * (Main.upper_freq o - Main.lower_freq o) <= - 3 * Main.step o)%Z →
  Main.plotter o = Raise ValueError.
Proof.
  intros Hrev.
  pose proof (step_above_min o) as Hstep. unfold Main.MIN_STEP in Hstep.
  pose proof (round_div_le_minus_2 _ (Main.step o) ltac:(lia) Hrev) as Hneg.
  unfold Main.plotter, __init__.
  destruct (Z.eqb_spec (Main.step o) 0) as [H0|_]; [lia|]. cbn zeta.
  by destruct (Z.ltb_spec
    (round_div (Main.upper_freq o - Main.lower_freq o) (Main.step o) + 1) 0);
    [|lia].
Qed.

(** X14. When the band has at least one whole step, both axes of the
    plotter end exactly at the end frequency, so the last point of the
    target axis is the last point of the source axis. *)
Theorem X14_axes_share_end (start_freq end_freq step : Z) p :
  __init__ start_freq end_freq step = Ok p →
  (1 <= (end_freq - start_freq) `div` step)%Z →
  last (x1 p) = Some (Numpy.float_of_Z end_freq)
  ∧ last (x2 p) = Some (Numpy.float_of_Z end_freq).
Proof.
  unfold __init__. destruct (step =? 0)%Z; [done|]. cbn zeta.
  destruct (_ <? 0)%Z; [done|].
  intros Hp Hq. injection Hp as <-. cbn [x1 x2].
  pose proof (round_div_ge_floor (end_freq - start_freq) step) as Hr.
  split.
  - destruct (Z.to_nat (round_div (end_freq - start_freq) step + 1))
      as [|[|m]] eqn:Hn; [lia|lia|].
    unfold Numpy.linspace. apply last_snoc.
  - unfold Numpy.linspace. apply last_snoc.
Qed.

(** ** The extra statements on concrete options and streams *)

Lemma X2_main_keeps_valid_options_witness :
  let o := Main.mkOptions 470000000 862000000 8000000 in
  (Main.RF_LOWER < Main.options_start_freq o)%Z
  ∧ (Main.options_start_freq o < Main.options_end_freq o)%Z
  ∧ (Main.options_end_freq o < Main.RF_UPPER)%Z
  ∧ (Main.MIN_STEP < Main.options_step o)%Z
  ∧ (Main.options_step o
     < Main.options_end_freq o - Main.options_start_freq o)%Z
  ∧ Main.lower_freq o = 470000000%Z
  ∧ Main.upper_freq o = 862000000%Z
  ∧ Main.step o = 8000000%Z.
Proof.
  intros o.
  assert (Main.RF_LOWER < Main.options_start_freq o)%Z as H1 by compute_done.
  assert (Main.options_start_freq o < Main.options_end_freq o)%Z as H2
    by compute_done.
  assert (Main.options_end_freq o < Main.RF_UPPER)%Z as H3 by compute_done.
  assert (Main.MIN_STEP < Main.options_step o)%Z as H4 by compute_done.
  assert (Main.options_step o
          < Main.options_end_freq o - Main.options_start_freq o)%Z as H5
    by compute_done.
  destruct (X2_main_keeps_valid_options o H1 H2 H3 H4 H5) as (Hl & Hu & Hs).
  split_and!; assumption.
Defined.

Lemma X3_main_band_ordered_witness :
  let o := Main.mkOptions 560000000 100 0 in
  (Main.lower_freq o < Main.DEFAULT_UPPER)%Z
  ∧ (Main.lower_freq o < Main.upper_freq o)%Z.
Proof.
  intros o.
  assert (Main.lower_freq o < Main.DEFAULT_UPPER)%Z as H by compute_done.
  split; [exact H|]. exact (X3_main_band_ordered o H).
Defined.

Lemma X5_few_points_refuses_all_witness :
  let s := mkPlot (replicate 256 floor_row) (replicate 256 floor_row)
             (Numpy.linspace 554000000%float 559000000%float 3)
             (Numpy.linspace 554000000%float 559000000%float 256) 0 None in
  length (x1 s) < 4
  ∧ callback linear unit tt (flat_sweep 3 (-60)%float) s
    = (Raise ValueError, s)
  ∧ feed linear unit tt (numbered_sweeps 5) s = s.
Proof.
  intros s.
  assert (length (x1 s) < 4) as H by compute_done.
  destruct (X5_few_points_refuses_all linear unit tt
              (flat_sweep 3 (-60)%float) (numbered_sweeps 5) s H) as [Hc Hf].
  split_and!; assumption.
Defined.

Lemma X6_main_narrow_band_refuses_all_witness :
  let o := Main.mkOptions 554000000 559000000 2000000 in
  (0 <= Main.upper_freq o - Main.lower_freq o)%Z
  ∧ (2 * (Main.upper_freq o - Main.lower_freq o) <= 5 * Main.step o)%Z
  ∧ ∃ p, Main.plotter o = Ok p
         ∧ 0 < length (x1 p) < 4
         ∧ feed linear unit tt (numbered_sweeps 5) p = p.
Proof.
  intros o.
  assert (0 <= Main.upper_freq o - Main.lower_freq o)%Z as H by compute_done.
  assert (2 * (Main.upper_freq o - Main.lower_freq o) <= 5 * Main.step o)%Z
    as H' by compute_done.
  split; [exact H|]. split; [exact H'|].
  exact (X6_main_narrow_band_refuses_all linear unit o tt (numbered_sweeps 5)
           H H').
Defined.

Lemma X4_main_plotter_constructed_witness :
  let o := Main.mkOptions 470000000 862000000 8000000 in
  (Main.lower_freq o <= Main.upper_freq o)%Z
  ∧ ∃ p, Main.plotter o = Ok p ∧ plot_ok p ∧ length (x1 p) = 50.
Proof.
  intros o.
  assert (Main.lower_freq o <= Main.upper_freq o)%Z as H by compute_done.
  split; [exact H|].
  destruct (X4_main_plotter_constructed o H) as (p & Hp & Hok & Hn & _).
  exists p. split_and!; assumption.
Defined.

Lemma X15_main_reversed_band_raises_witness :
  let o := Main.mkOptions 600000000 570000000 2000000 in
  (2 * (Main.upper_freq o - Main.lower_freq o) <= - 3 * Main.step o)%Z
  ∧ Main.plotter o = Raise ValueError.
Proof.
  intros o.
  assert (2 * (Main.upper_freq o - Main.lower_freq o) <= - 3 * Main.step o)%Z
    as H by compute_done.
  split; [exact H|]. exact (X15_main_reversed_band_raises o H).
Defined.

Lemma X7_callback_outcome_witness :
  plot_ok default_plot
  ∧ (callback linear unit tt spiky_sweep default_plot).1 =
      if decide (valid_sweep (x1 default_plot) spiky_sweep) then Ok true
      else if decide (length (data spiky_sweep) = length (x1 default_plot)
                      ∧ 256 ≤ length (data spiky_sweep)) then Ok false
      else Raise ValueError.
Proof.
  assert (plot_ok default_plot) as Hok by compute_done.
  split; [exact Hok|].
  exact (X7_callback_outcome linear unit tt spiky_sweep default_plot Hok).
Defined.

Lemma X9_stored_is_shown_or_rolled_witness :
  let s := feed linear unit tt (coarse_sweep :: numbered_sweeps 4) default_plot in
  __init__ 554000000%Z 570000000%Z 2000000%Z = Ok default_plot
  ∧ (image s = A s ∨ (line s = 255 ∧ A s = rotate 1 (image s))).
Proof.
  intros s. split; [exact init_default|].
  exact (X9_stored_is_shown_or_rolled linear unit _ _ _ _ tt
           (coarse_sweep :: numbered_sweeps 4) init_default).
Defined.

Lemma X10_cursor_counts_valid_sweeps_witness :
  let sweeps := coarse_sweep :: numbered_sweeps 4 ++ [flat_sweep 3 0%float] in
  __init__ 554000000%Z 570000000%Z 2000000%Z = Ok default_plot
  ∧ line (feed linear unit tt sweeps default_plot)
    = length (filter (valid_sweep (x1 default_plot)) sweeps) `min` 255.
Proof.
  intros sweeps. split; [exact init_default|].
  exact (X10_cursor_counts_valid_sweeps linear unit _ _ _ _ tt sweeps
           init_default).
Defined.

Lemma X11_filling_rows_witness :
  let sweeps := coarse_sweep :: numbered_sweeps 4 ++ [flat_sweep 3 0%float] in
  let valid := filter (valid_sweep (x1 default_plot)) sweeps in
  __init__ 554000000%Z 570000000%Z 2000000%Z = Ok default_plot
  ∧ length valid ≤ 255
  ∧ A (feed linear unit tt sweeps default_plot)
    = (resample linear default_plot <$> valid)
      ++ replicate (256 - length valid) floor_row.
Proof.
  intros sweeps valid.
  assert (length valid ≤ 255) as Hn by compute_done.
  split; [exact init_default|]. split; [exact Hn|].
  exact (X11_filling_rows linear unit _ _ _ _ tt sweeps init_default Hn).
Defined.

Lemma X12_window_of_valid_sweeps_witness :
  let sweeps := numbered_sweeps 200 ++ coarse_sweep :: numbered_sweeps 60 in
  let valid := filter (valid_sweep (x1 default_plot)) sweeps in
  __init__ 554000000%Z 570000000%Z 2000000%Z = Ok default_plot
  ∧ 256 ≤ length valid
  ∧ image (feed linear unit tt sweeps default_plot)
    = resample linear default_plot <$> drop (length valid - 256) valid.
Proof.
  intros sweeps valid.
  assert (256 ≤ length valid) as Hn by compute_done.
  split; [exact init_default|]. split; [exact Hn|].
  exact (proj1 (X12_window_of_valid_sweeps linear unit _ _ _ _ tt sweeps
                  init_default Hn)).
Defined.

Lemma X14_axes_share_end_witness :
  __init__ 554000000%Z 570000000%Z 2000000%Z = Ok default_plot
  ∧ (1 <= (570000000 - 554000000) `div` 2000000)%Z
  ∧ last (x1 default_plot) = Some (Numpy.float_of_Z 570000000)
  ∧ last (x2 default_plot) = Some (Numpy.float_of_Z 570000000).
Proof.
  assert (1 <= (570000000 - 554000000) `div` 2000000)%Z as Hq by compute_done.
  destruct (X14_axes_share_end _ _ _ _ init_default Hq) as [H1 H2].
  split_and!; assumption || exact init_default.
Defined.

